(** * Video-mode discovery on X11 (SFML, Unix back end)

    A shallow embedding of [sf::priv::VideoModeImpl::getFullscreenModes] and
    [sf::priv::VideoModeImpl::getDesktopMode]
    (src/SFML/Window/Unix/VideoModeImpl.cpp) and the properties of the two
    entry points.

    The X server is an explicit argument: a record holding what each Xlib /
    XRandR call of the source answers.  The effects of the source that can be
    observed from outside (native handles obtained and given back, lines
    written to [sf::err()]) are appended to a log that is threaded through the
    code by a small state monad; a read outside an array makes the outcome
    [Undefined]. *)

From Stdlib Require Import String ZArith List Bool Lia.
Import ListNotations.

Open Scope Z_scope.

(** ** Machine integers *)

(** Conversion of an [int] argument to an [unsigned int] parameter
    (32 bits, value preserved modulo 2^32). *)
Definition uint_of_int (z : Z) : Z := z mod 2 ^ 32.

(** ** Xlib and XRandR declarations used by the source *)

Module X11.

(** [RRMode] is an XID ([unsigned long]); [Rotation] is an
    [unsigned short]. *)
Definition RRMode := Z.
Definition Rotation := Z.

(** Values of <X11/extensions/randr.h>. *)
Definition RR_Rotate_0 : Rotation := 1.
Definition RR_Rotate_90 : Rotation := 2.
Definition RR_Rotate_180 : Rotation := 4.
Definition RR_Rotate_270 : Rotation := 8.

(** The fields of [XRRModeInfo] the source reads. *)
Record XRRModeInfo : Type := {
  id : RRMode;
  width : Z;
  height : Z
}.

(** [XRRScreenResources]: the array [modes] with its length [nmode]. *)
Record XRRScreenResources : Type := { res_modes : list XRRModeInfo }.

(** [XRROutputInfo]: the array [modes] with its length [nmode]. *)
Record XRROutputInfo : Type := { out_modes : list RRMode }.

(** [XRRScreenConfiguration], opaque but for the rotation that
    [XRRConfigRotations] stores through its second argument. *)
Record XRRScreenConfiguration : Type := { current_rotation : Rotation }.

Definition XRRConfigRotations (config : XRRScreenConfiguration) : Rotation :=
  current_rotation config.

(** [Display]: the connection; [DefaultDepth(display, screen)] reads the
    root depth of the default screen from it. *)
Record Display : Type := { DefaultDepth : Z }.

(** What the server answers to each call.  A pointer result is [None] when
    it is null.  [XListDepths] gives the array together with [nbDepths],
    its length. *)
Record XServer : Type := {
  OpenDisplay : option Display;
  XQueryExtension : bool;
  XRRGetScreenInfo : option XRRScreenConfiguration;
  XRRGetScreenResources : option XRRScreenResources;
  XRRGetOutputInfo : option XRROutputInfo;
  XListDepths : option (list Z)
}.

End X11.

Import X11.

(** ** sf::VideoMode *)

Record VideoMode : Type := {
  width : Z;
  height : Z;
  bitsPerPixel : Z
}.

(** Modelled from the spec: the default constructor of [sf::VideoMode]
    (VideoMode.cpp is not part of the sources at hand); the spec calls its
    result the zero-valued VideoMode, all fields zero. *)
Definition VideoMode_default : VideoMode :=
  {| width := 0; height := 0; bitsPerPixel := 0 |}.

(** Modelled from the spec: [operator ==] on [sf::VideoMode] (VideoMode.cpp
    is not part of the sources at hand); equality is structural, all three
    fields equal. *)
Definition VideoMode_eqb (left right : VideoMode) : bool :=
  (width left =? width right) &&
  (height left =? height right) &&
  (bitsPerPixel left =? bitsPerPixel right).

(** [std::swap(mode.width, mode.height)]. *)
Definition swap_width_height (mode : VideoMode) : VideoMode :=
  {| width := height mode; height := width mode;
     bitsPerPixel := bitsPerPixel mode |}.

(** [std::find(modes.begin(), modes.end(), mode) == modes.end()]. *)
Definition not_found (modes : list VideoMode) (mode : VideoMode) : bool :=
  negb (existsb (fun m => VideoMode_eqb m mode) modes).

(** ** Observable effects *)

Inductive Resource : Type :=
| Connection
| ScreenConfig
| ScreenResources
| OutputInfo
| DepthArray.

Inductive Event : Type :=
| Acquire (r : Resource)
| Release (r : Resource)
| ErrLine (line : string).

Definition Log := list Event.

Inductive Outcome (A : Type) : Type :=
| Returns (a : A) (log : Log)
| Undefined.

Arguments Returns {A} a log.
Arguments Undefined {A}.

Definition X (A : Type) : Type := Log -> Outcome A.

Definition ret {A : Type} (a : A) : X A := fun log => Returns a log.

Definition bind {A B : Type} (m : X A) (k : A -> X B) : X B :=
  fun log =>
    match m log with
    | Returns a log' => k a log'
    | Undefined => Undefined
    end.

Declare Scope x_scope.
Delimit Scope x_scope with x.
Notation "v <- m ;; k" := (bind m (fun v => k))
  (at level 61, m at next level, right associativity) : x_scope.
Notation "m ;; k" := (bind m (fun _ => k))
  (at level 61, right associativity) : x_scope.
Open Scope x_scope.

Definition emit (e : Event) : X unit := fun log => Returns tt (log ++ [e]).

(** [err() << line << std::endl]. *)
Definition err (line : string) : X unit := emit (ErrLine line).

(** A call that hands out a native handle: the handle exists from the moment
    the call answers a non-null pointer. *)
Definition call {A : Type} (r : Resource) (answer : option A) : X (option A) :=
  match answer with
  | Some a => emit (Acquire r) ;; ret (Some a)
  | None => ret None
  end.

(** [CloseDisplay], [XRRFreeScreenConfigInfo], [XRRFreeScreenResources],
    [XRRFreeOutputInfo], [XFree]. *)
Definition free (r : Resource) : X unit := emit (Release r).

(** [array[0]]: reading the first element of an array of length zero is a
    read outside the array. *)
Definition first_element {A : Type} (array : list A) : X A :=
  match array with
  | a :: _ => ret a
  | [] => fun _ => Undefined
  end.

(** The parts of a log. *)
Definition acquired (log : Log) : list Resource :=
  flat_map (fun e => match e with Acquire r => [r] | _ => [] end) log.

Definition released (log : Log) : list Resource :=
  flat_map (fun e => match e with Release r => [r] | _ => [] end) log.

Definition diagnostics (log : Log) : list string :=
  flat_map (fun e => match e with ErrLine s => [s] | _ => [] end) log.

(** ** The two entry points *)

Module VideoModeImpl.

Section FullscreenLoops.

Variable config : XRRScreenConfiguration.

(** Body of the loop on [k] (lines 82-98), for [depths[i] = depth] and
    [output_info->modes[j] = jmode]. *)
Definition visit_mode_info (depth : Z) (jmode : RRMode)
    (modes : list VideoMode) (info : XRRModeInfo) : list VideoMode :=
  if jmode =? id info then
    let mode :=
      {| width := X11.width info; height := X11.height info;
         bitsPerPixel := uint_of_int depth |} in
    let currentRotation := XRRConfigRotations config in
    let mode :=
      if (currentRotation =? RR_Rotate_90) || (currentRotation =? RR_Rotate_270)
      then swap_width_height mode
      else mode in
    if not_found modes mode then modes ++ [mode] else modes
  else modes.

(** Loop on [k] over [res->modes] (line 80). *)
Definition scan_resources (res : XRRScreenResources) (depth : Z)
    (modes : list VideoMode) (jmode : RRMode) : list VideoMode :=
  fold_left (visit_mode_info depth jmode) (res_modes res) modes.

(** Loop on [j] over [output_info->modes] (line 76). *)
Definition scan_output (res : XRRScreenResources)
    (output_info : XRROutputInfo)
    (modes : list VideoMode) (depth : Z) : list VideoMode :=
  fold_left (scan_resources res depth) (out_modes output_info) modes.

(** Loop on [i] over [depths] (line 74). *)
Definition scan_depths (res : XRRScreenResources)
    (output_info : XRROutputInfo) (depths : list Z)
    (modes : list VideoMode) : list VideoMode :=
  fold_left (scan_output res output_info) depths modes.

End FullscreenLoops.

Definition getFullscreenModes (x : XServer) : X (list VideoMode) :=
  let modes : list VideoMode := [] in
  display <- call Connection (OpenDisplay x) ;;
  match display with
  | Some display =>
      modes <-
        (if XQueryExtension x then
           config <- call ScreenConfig (XRRGetScreenInfo x) ;;
           match config with
           | Some config =>
               res <- call ScreenResources (XRRGetScreenResources x) ;;
               modes <-
                 match res with
                 | Some res =>
                     output_info <- call OutputInfo (XRRGetOutputInfo x) ;;
                     modes <-
                       match output_info with
                       | Some output_info =>
                           depths <- call DepthArray (XListDepths x) ;;
                           modes <-
                             match depths with
                             | Some depths =>
                                 let nbDepths := Z.of_nat (length depths) in
                                 if nbDepths >? 0 then
                                   let modes :=
                                     scan_depths config res output_info depths modes in
                                   free DepthArray ;;
                                   ret modes
                                 else ret modes
                             | None => ret modes
                             end ;;
                           free OutputInfo ;;
                           ret modes
                       | None => ret modes
                       end ;;
                     free ScreenResources ;;
                     ret modes
                 | None => ret modes
                 end ;;
               free ScreenConfig ;;
               ret modes
           | None =>
               err "Failed to retrieve the screen configuration while trying to get the supported video modes"%string ;;
               ret modes
           end
         else
           err "Failed to use the XRandR extension while trying to get the supported video modes"%string ;;
           ret modes) ;;
      free Connection ;;
      ret modes
  | None =>
      err "Failed to connect to the X server while trying to get the supported video modes"%string ;;
      ret modes
  end.

(** Body of the loop on [k] of [getDesktopMode] (lines 175-186), for
    [output_info->modes[0] = mode]. *)
Definition match_mode_info (display : Display)
    (config : XRRScreenConfiguration) (mode : RRMode)
    (desktopMode : VideoMode) (info : XRRModeInfo) : VideoMode :=
  if mode =? id info then
    let desktopMode :=
      {| width := X11.width info; height := X11.height info;
         bitsPerPixel := uint_of_int (DefaultDepth display) |} in
    let currentRotation := XRRConfigRotations config in
    if (currentRotation =? RR_Rotate_90) || (currentRotation =? RR_Rotate_270)
    then swap_width_height desktopMode
    else desktopMode
  else desktopMode.

Definition getDesktopMode (x : XServer) : X VideoMode :=
  let desktopMode := VideoMode_default in
  display <- call Connection (OpenDisplay x) ;;
  match display with
  | Some display =>
      desktopMode <-
        (if XQueryExtension x then
           config <- call ScreenConfig (XRRGetScreenInfo x) ;;
           match config with
           | Some config =>
               res <- call ScreenResources (XRRGetScreenResources x) ;;
               desktopMode <-
                 match res with
                 | Some res =>
                     output_info <- call OutputInfo (XRRGetOutputInfo x) ;;
                     desktopMode <-
                       match output_info with
                       | Some output_info =>
                           mode <- first_element (out_modes output_info) ;;
                           let desktopMode :=
                             fold_left (match_mode_info display config mode)
                                       (res_modes res) desktopMode in
                           free OutputInfo ;;
                           ret desktopMode
                       | None => ret desktopMode
                       end ;;
                     free ScreenResources ;;
                     ret desktopMode
                 | None => ret desktopMode
                 end ;;
               free ScreenConfig ;;
               ret desktopMode
           | None =>
               err "Failed to retrieve the screen configuration while trying to get the desktop video modes"%string ;;
               ret desktopMode
           end
         else
           err "Failed to use the XRandR extension while trying to get the desktop video modes"%string ;;
           ret desktopMode) ;;
      free Connection ;;
      ret desktopMode
  | None =>
      err "Failed to connect to the X server while trying to get the desktop video modes"%string ;;
      ret desktopMode
  end.

End VideoModeImpl.

Import VideoModeImpl.

(** Running an entry point from the empty log. *)
Definition run {A : Type} (m : X A) : Outcome A := m [].

Definition result {A : Type} (o : Outcome A) : option A :=
  match o with Returns a _ => Some a | Undefined => None end.

Definition log_of {A : Type} (o : Outcome A) : Log :=
  match o with Returns _ log => log | Undefined => [] end.

(** * Notions of the specification *)

(** ** Structural equality and insertion without duplicates *)

(** Structural equality is decidable. *)
Definition VideoMode_eq_dec (a b : VideoMode) : {a = b} + {a <> b}.
Proof. decide equality; apply Z.eq_dec. Defined.

(** Lines 96-97: [push_back] unless [std::find] meets an equal element. *)
Definition push_unique (modes : list VideoMode) (mode : VideoMode) : list VideoMode :=
  if not_found modes mode then modes ++ [mode] else modes.

(** ** The rotation rule *)

(** The rotation is a quarter or a three-quarter turn. *)
Definition quarter_turn (rotation : Rotation) : Prop :=
  rotation = RR_Rotate_90 \/ rotation = RR_Rotate_270.

(** The mode of a descriptor and a depth with the axes as the server reports
    them, and with the axes exchanged. *)
Definition as_reported (info : XRRModeInfo) (depth : Z) : VideoMode :=
  {| width := X11.width info; height := X11.height info;
     bitsPerPixel := uint_of_int depth |}.

Definition exchanged (info : XRRModeInfo) (depth : Z) : VideoMode :=
  {| width := X11.height info; height := X11.width info;
     bitsPerPixel := uint_of_int depth |}.

Definition quarter_turnb (rotation : Rotation) : bool :=
  (rotation =? RR_Rotate_90) || (rotation =? RR_Rotate_270).

(** Rotation correction: the axes are exchanged on a quarter or
    three-quarter turn and kept otherwise. *)
Definition rotation_corrected (rotation : Rotation) (info : XRRModeInfo)
    (depth : Z) : VideoMode :=
  if quarter_turnb rotation then exchanged info depth else as_reported info depth.

(** A mode obeys the rotation rule for a descriptor and a depth: the axes
    are exchanged exactly when the rotation is a quarter or three-quarter
    turn. *)
Definition rotation_rule (rotation : Rotation) (info : XRRModeInfo)
    (depth : Z) (m : VideoMode) : Prop :=
  (quarter_turn rotation /\ m = exchanged info depth) \/
  (~ quarter_turn rotation /\ m = as_reported info depth).

(** ** Discovery order *)

(** The candidates in the order they are discovered: depth-major, then the
    position in the mode list of the output, then the position in the
    resource table. *)
Definition discovered (rotation : Rotation) (table : list XRRModeInfo)
    (output : list RRMode) (depths : list Z) : list VideoMode :=
  flat_map (fun depth =>
    flat_map (fun jmode =>
      map (fun info => rotation_corrected rotation info depth)
          (filter (fun info => jmode =? id info) table))
      output)
    depths.

(** Of equal values the earliest is kept and the later ones are dropped. *)
Definition keep_first (candidates : list VideoMode) : list VideoMode :=
  fold_right
    (fun m kept => m :: filter (fun m' => negb (VideoMode_eqb m' m)) kept)
    [] candidates.

(** ** The acquisition chain *)

(** Every call of the chain shared by the two entry points answers. *)
Definition acquisitions_succeed (x : XServer) (display : Display)
    (config : XRRScreenConfiguration) (res : XRRScreenResources)
    (output_info : XRROutputInfo) : Prop :=
  OpenDisplay x = Some display /\
  XQueryExtension x = true /\
  XRRGetScreenInfo x = Some config /\
  XRRGetScreenResources x = Some res /\
  XRRGetOutputInfo x = Some output_info.

(** The steps that can fail, in the order of the chain. *)
Inductive Step : Type :=
| ConnectionStep
| ExtensionStep
| ConfigStep
| ResourceStep
| OutputStep
| DepthStep.

(** The step at which [getFullscreenModes] stops, if any: the first call
    whose answer fails the test the source makes on it. *)
Definition first_failure (x : XServer) : option Step :=
  match OpenDisplay x with
  | None => Some ConnectionStep
  | Some _ =>
      if negb (XQueryExtension x) then Some ExtensionStep else
      match XRRGetScreenInfo x with
      | None => Some ConfigStep
      | Some _ =>
          match XRRGetScreenResources x with
          | None => Some ResourceStep
          | Some _ =>
              match XRRGetOutputInfo x with
              | None => Some OutputStep
              | Some _ =>
                  match XListDepths x with
                  | None | Some [] => Some DepthStep
                  | Some (_ :: _) => None
                  end
              end
          end
      end
  end.

(** The descriptor of the current mode: the entry of the resource table that
    decides for the identifier at position zero of the output's mode list. *)
Definition current_mode_info (res : XRRScreenResources)
    (output_info : XRROutputInfo) (info : XRRModeInfo) : Prop :=
  exists mode rest before after,
    out_modes output_info = mode :: rest /\
    res_modes res = before ++ info :: after /\
    id info = mode /\
    Forall (fun info' => id info' <> mode) after.

(** ** Release of the native handles *)

Definition Resource_eq_dec (r r' : Resource) : {r = r'} + {r <> r'}.
Proof. decide equality. Defined.

(** The handles still held after a log, the last obtained first, starting
    from the handles [held]; [None] when a handle is given back that is not
    the last one obtained and still held. *)
Fixpoint outstanding (log : Log) (held : list Resource) : option (list Resource) :=
  match log with
  | [] => Some held
  | Acquire r :: log' => outstanding log' (r :: held)
  | Release r :: log' =>
      match held with
      | r' :: held' =>
          if Resource_eq_dec r r' then outstanding log' held' else None
      | [] => None
      end
  | ErrLine _ :: log' => outstanding log' held
  end.

(** Every handle obtained is given back once, in the reverse of the order
    in which the handles were obtained, and none is held at the end. *)
Definition released_in_reverse (log : Log) : Prop :=
  NoDup (acquired log) /\
  released log = rev (acquired log) /\
  outstanding log [] = Some [].

(** * Servers *)

(** ** Scenarios of the specification *)

Definition M1 : RRMode := 1.
Definition M7 : RRMode := 7.
Definition M9 : RRMode := 9.

Definition server (rotation : Rotation) (table : list XRRModeInfo)
    (output : list RRMode) (depths : list Z) (default_depth : Z) : XServer :=
  {| OpenDisplay := Some {| DefaultDepth := default_depth |};
     XQueryExtension := true;
     XRRGetScreenInfo := Some {| current_rotation := rotation |};
     XRRGetScreenResources := Some {| res_modes := table |};
     XRRGetOutputInfo := Some {| out_modes := output |};
     XListDepths := Some depths |}.

Definition full_hd : XRRModeInfo := {| id := M1; X11.width := 1920; X11.height := 1080 |}.
Definition hd : XRRModeInfo := {| id := M7; X11.width := 1280; X11.height := 720 |}.

Definition scenario_A : XServer := server RR_Rotate_0 [full_hd] [M1] [24] 24.
Definition scenario_B : XServer := server RR_Rotate_90 [full_hd] [M1] [24] 24.
Definition scenario_C : XServer := server RR_Rotate_0 [full_hd] [M1] [24; 32] 24.
Definition scenario_E : XServer := server RR_Rotate_180 [hd] [M7; M9] [24] 24.

(** ** Failing servers *)

Definition connection_refused : XServer :=
  {| OpenDisplay := None;
     XQueryExtension := true;
     XRRGetScreenInfo := Some {| current_rotation := RR_Rotate_0 |};
     XRRGetScreenResources := Some {| res_modes := [full_hd] |};
     XRRGetOutputInfo := Some {| out_modes := [M1] |};
     XListDepths := Some [24] |}.

(** Scenario D: the extension query fails. *)
Definition scenario_D : XServer :=
  {| OpenDisplay := Some {| DefaultDepth := 24 |};
     XQueryExtension := false;
     XRRGetScreenInfo := Some {| current_rotation := RR_Rotate_0 |};
     XRRGetScreenResources := Some {| res_modes := [full_hd] |};
     XRRGetOutputInfo := Some {| out_modes := [M1] |};
     XListDepths := Some [24] |}.

Definition config_unavailable : XServer :=
  {| OpenDisplay := Some {| DefaultDepth := 24 |};
     XQueryExtension := true;
     XRRGetScreenInfo := None;
     XRRGetScreenResources := Some {| res_modes := [full_hd] |};
     XRRGetOutputInfo := Some {| out_modes := [M1] |};
     XListDepths := Some [24] |}.

Definition resources_unavailable : XServer :=
  {| OpenDisplay := Some {| DefaultDepth := 24 |};
     XQueryExtension := true;
     XRRGetScreenInfo := Some {| current_rotation := RR_Rotate_0 |};
     XRRGetScreenResources := None;
     XRRGetOutputInfo := Some {| out_modes := [M1] |};
     XListDepths := Some [24] |}.

(** [XListDepths] answers a non-null array and leaves [nbDepths] at zero. *)
Definition no_depth : XServer := server RR_Rotate_0 [full_hd] [M1] [] 24.

(** The output lists no mode. *)
Definition no_output_mode : XServer := server RR_Rotate_0 [full_hd] [] [24] 24.

(** The first mode of the output is not in the resource table. *)
Definition unknown_mode : XServer := server RR_Rotate_0 [full_hd] [M9; M1] [24] 24.

(** The sentence of C5 at one server: if the step at which
    [getFullscreenModes] stops is one of the four fetches, exactly one line
    is written and the empty sequence is returned. *)
Definition failed_fetch_reported (x : XServer) : Prop :=
  forall step,
    In step [ConfigStep; ResourceStep; OutputStep; DepthStep] ->
    first_failure x = Some step ->
    exists line,
      diagnostics (log_of (run (getFullscreenModes x))) = [line] /\
      result (run (getFullscreenModes x)) = Some [].

(** ** The order of the acquisitions *)

(** The handles in the order in which the source asks for them. *)
Definition chain : list Resource :=
  [Connection; ScreenConfig; ScreenResources; OutputInfo; DepthArray].

(** A placeholder for [last] on a log. *)
Definition no_event : Event := ErrLine EmptyString.

(** Two more servers: a depth listed twice, and a default depth that the
    depth list holds. *)
Definition repeated_depth : XServer :=
  server RR_Rotate_0 [full_hd; hd] [M1; M7] [24; 32; 24] 24.

Definition two_sizes : XServer :=
  server RR_Rotate_270 [full_hd; hd] [M7; M1] [16; 24] 24.

(** * Proofs *)

(** ** Scenarios A, B and D *)

Example scenario_A_modes :
  result (run (getFullscreenModes scenario_A))
  = Some [ {| width := 1920; height := 1080; bitsPerPixel := 24 |} ].
Proof. reflexivity. Qed.

Example scenario_B_modes :
  result (run (getFullscreenModes scenario_B))
  = Some [ {| width := 1080; height := 1920; bitsPerPixel := 24 |} ].
Proof. reflexivity. Qed.

Example scenario_D_modes :
  run (getFullscreenModes scenario_D)
  = Returns []
      [ Acquire Connection;
        ErrLine "Failed to use the XRandR extension while trying to get the supported video modes";
        Release Connection ].
Proof. reflexivity. Qed.

Example connection_refused_modes :
  run (getFullscreenModes connection_refused)
  = Returns []
      [ ErrLine "Failed to connect to the X server while trying to get the supported video modes" ].
Proof. reflexivity. Qed.

(** ** Structural equality of video modes *)

Lemma VideoMode_eqb_eq (a b : VideoMode) : VideoMode_eqb a b = true <-> a = b.
Proof.
  destruct a as [aw ah ab], b as [bw bh bb]; unfold VideoMode_eqb; simpl.
  rewrite !andb_true_iff, !Z.eqb_eq.
  split.
  - intros [[-> ->] ->]; reflexivity.
  - intros E; injection E as -> -> ->; auto.
Qed.

Lemma VideoMode_eqb_neq (a b : VideoMode) : VideoMode_eqb a b = false <-> a <> b.
Proof.
  rewrite <- VideoMode_eqb_eq.
  destruct (VideoMode_eqb a b); split; congruence.
Qed.

Lemma VideoMode_eqb_sym (a b : VideoMode) : VideoMode_eqb a b = VideoMode_eqb b a.
Proof.
  unfold VideoMode_eqb.
  rewrite (Z.eqb_sym (width a)), (Z.eqb_sym (height a)), (Z.eqb_sym (bitsPerPixel a)).
  reflexivity.
Qed.

Lemma not_found_true (modes : list VideoMode) (mode : VideoMode) :
  not_found modes mode = true <-> ~ In mode modes.
Proof.
  unfold not_found.
  rewrite negb_true_iff.
  split.
  - intros E I.
    assert (existsb (fun m => VideoMode_eqb m mode) modes = true) as T.
    { apply existsb_exists; exists mode; split; [exact I | now apply VideoMode_eqb_eq]. }
    congruence.
  - intros N.
    destruct (existsb (fun m => VideoMode_eqb m mode) modes) eqn:E; [| reflexivity].
    apply existsb_exists in E as (m & I & Em).
    apply VideoMode_eqb_eq in Em; subst m; contradiction.
Qed.

Lemma not_found_false (modes : list VideoMode) (mode : VideoMode) :
  not_found modes mode = false <-> In mode modes.
Proof.
  destruct (not_found modes mode) eqn:E.
  - apply not_found_true in E; split; [discriminate | contradiction].
  - split; [intros _ | reflexivity].
    destruct (in_dec VideoMode_eq_dec mode modes) as [I | N]; [exact I |].
    apply not_found_true in N; congruence.
Qed.

(** ** The rotation rule *)

Lemma quarter_turnb_spec (rotation : Rotation) :
  quarter_turnb rotation = true <-> quarter_turn rotation.
Proof.
  unfold quarter_turnb, quarter_turn.
  rewrite orb_true_iff, !Z.eqb_eq; reflexivity.
Qed.

Lemma rotation_corrected_quarter (rotation : Rotation) info depth :
  quarter_turn rotation -> rotation_corrected rotation info depth = exchanged info depth.
Proof.
  intros Q; apply quarter_turnb_spec in Q.
  unfold rotation_corrected; rewrite Q; reflexivity.
Qed.

Lemma rotation_corrected_upright (rotation : Rotation) info depth :
  ~ quarter_turn rotation -> rotation_corrected rotation info depth = as_reported info depth.
Proof.
  intros Q; unfold rotation_corrected.
  destruct (quarter_turnb rotation) eqn:E; [| reflexivity].
  apply quarter_turnb_spec in E; contradiction.
Qed.

(** ** Insertion without duplicates *)

Lemma push_unique_In modes mode m :
  In m (push_unique modes mode) <-> In m modes \/ m = mode.
Proof.
  unfold push_unique.
  destruct (not_found modes mode) eqn:E.
  - rewrite in_app_iff; simpl; intuition congruence.
  - apply not_found_false in E.
    split; [auto | intros [I | ->]; assumption].
Qed.

Lemma push_unique_NoDup modes mode :
  NoDup modes -> NoDup (push_unique modes mode).
Proof.
  intros N; unfold push_unique.
  destruct (not_found modes mode) eqn:E; [| exact N].
  apply not_found_true in E.
  apply NoDup_app; [exact N | repeat constructor; intros [] |].
  intros a I [<- | []]; contradiction.
Qed.

Lemma fold_push_unique_In candidates : forall modes m,
  In m (fold_left push_unique candidates modes) <-> In m modes \/ In m candidates.
Proof.
  induction candidates as [| c candidates IH]; intros modes m; simpl.
  - tauto.
  - rewrite IH, push_unique_In; intuition congruence.
Qed.

Lemma fold_push_unique_NoDup candidates : forall modes,
  NoDup modes -> NoDup (fold_left push_unique candidates modes).
Proof.
  induction candidates as [| c candidates IH]; intros modes N; simpl.
  - exact N.
  - apply IH, push_unique_NoDup, N.
Qed.

(** ** Keeping the first of equal candidates *)

Lemma filter_twice {A : Type} (f g : A -> bool) (l : list A) :
  filter f (filter g l) = filter (fun a => g a && f a) l.
Proof.
  induction l as [| a l IH]; simpl; [reflexivity |].
  destruct (g a); simpl; [destruct (f a) |]; rewrite IH; reflexivity.
Qed.

Lemma not_found_snoc modes m a :
  not_found (modes ++ [m]) a = negb (VideoMode_eqb a m) && not_found modes a.
Proof.
  unfold not_found.
  rewrite existsb_app; simpl.
  rewrite orb_false_r, negb_orb, (VideoMode_eqb_sym m a).
  apply andb_comm.
Qed.

Lemma fold_push_unique_keep_first candidates : forall modes,
  fold_left push_unique candidates modes
  = modes ++ filter (not_found modes) (keep_first candidates).
Proof.
  induction candidates as [| c candidates IH]; intros modes; simpl.
  - symmetry; apply app_nil_r.
  - rewrite IH, filter_twice.
    unfold push_unique.
    destruct (not_found modes c) eqn:E.
    + rewrite <- app_assoc; simpl.
      do 2 f_equal.
      apply filter_ext; intros a; apply not_found_snoc.
    + f_equal.
      apply filter_ext; intros a.
      destruct (VideoMode_eqb a c) eqn:Eac; simpl; [| reflexivity].
      apply VideoMode_eqb_eq in Eac; subst a; exact E.
Qed.

Corollary fold_push_unique_from_empty candidates :
  fold_left push_unique candidates [] = keep_first candidates.
Proof.
  rewrite fold_push_unique_keep_first; simpl.
  induction (keep_first candidates) as [| m l IH]; simpl; [| rewrite IH]; reflexivity.
Qed.

(** ** The loops of [getFullscreenModes] insert the discovered candidates *)

Section Loops.

Variable config : XRRScreenConfiguration.
Variable res : XRRScreenResources.
Variable output_info : XRROutputInfo.

Let rotation := current_rotation config.

Lemma visit_mode_info_push depth jmode modes info :
  visit_mode_info config depth jmode modes info
  = if jmode =? id info
    then push_unique modes (rotation_corrected rotation info depth)
    else modes.
Proof.
  unfold visit_mode_info, push_unique, rotation_corrected, quarter_turnb,
    XRRConfigRotations, rotation.
  destruct (jmode =? id info); [| reflexivity].
  destruct ((current_rotation config =? RR_Rotate_90)
            || (current_rotation config =? RR_Rotate_270)); reflexivity.
Qed.

Lemma scan_resources_push depth jmode : forall modes,
  scan_resources config res depth modes jmode
  = fold_left push_unique
      (map (fun info => rotation_corrected rotation info depth)
           (filter (fun info => jmode =? id info) (res_modes res)))
      modes.
Proof.
  unfold scan_resources.
  induction (res_modes res) as [| info table IH]; intros modes; simpl.
  - reflexivity.
  - rewrite visit_mode_info_push.
    destruct (jmode =? id info); simpl; apply IH.
Qed.

Lemma scan_output_push depth : forall modes,
  scan_output config res output_info modes depth
  = fold_left push_unique
      (flat_map (fun jmode =>
         map (fun info => rotation_corrected rotation info depth)
             (filter (fun info => jmode =? id info) (res_modes res)))
         (out_modes output_info))
      modes.
Proof.
  unfold scan_output.
  induction (out_modes output_info) as [| jmode output IH]; intros modes; simpl.
  - reflexivity.
  - rewrite fold_left_app, <- scan_resources_push; apply IH.
Qed.

Lemma scan_depths_push depths : forall modes,
  scan_depths config res output_info depths modes
  = fold_left push_unique
      (discovered rotation (res_modes res) (out_modes output_info) depths)
      modes.
Proof.
  unfold scan_depths, discovered.
  induction depths as [| depth depths IH]; intros modes; simpl.
  - reflexivity.
  - rewrite fold_left_app, <- scan_output_push; apply IH.
Qed.

Lemma discovered_In depths m :
  In m (discovered rotation (res_modes res) (out_modes output_info) depths)
  <-> exists depth jmode info,
        In depth depths /\ In jmode (out_modes output_info) /\
        In info (res_modes res) /\ id info = jmode /\
        m = rotation_corrected rotation info depth.
Proof.
  unfold discovered.
  rewrite in_flat_map.
  split.
  - intros (depth & Id & I).
    apply in_flat_map in I as (jmode & Ij & I).
    apply in_map_iff in I as (info & <- & I).
    apply filter_In in I as (Ii & E).
    apply Z.eqb_eq in E.
    exists depth, jmode, info; auto.
  - intros (depth & jmode & info & Id & Ij & Ii & E & ->).
    exists depth; split; [exact Id |].
    apply in_flat_map; exists jmode; split; [exact Ij |].
    apply in_map_iff; exists info; split; [reflexivity |].
    apply filter_In; split; [exact Ii |].
    apply Z.eqb_eq; congruence.
Qed.

End Loops.

(** Later occurrences of a value that was met before are dropped. *)
Lemma keep_first_filter m : forall candidates,
  filter (fun m' => negb (VideoMode_eqb m' m)) (keep_first candidates)
  = keep_first (filter (fun m' => negb (VideoMode_eqb m' m)) candidates).
Proof.
  induction candidates as [| c candidates IH]; simpl; [reflexivity |].
  destruct (VideoMode_eqb c m) eqn:E; simpl.
  - apply VideoMode_eqb_eq in E; subst c.
    rewrite filter_twice, <- IH.
    apply filter_ext; intros a; apply andb_diag.
  - f_equal.
    rewrite <- IH, !filter_twice.
    apply filter_ext; intros a; apply andb_comm.
Qed.

Lemma keep_first_later_dropped m : forall before after,
  In m before ->
  keep_first (before ++ m :: after) = keep_first (before ++ after).
Proof.
  induction before as [| b before IH]; intros after I; simpl.
  - destruct I.
  - f_equal.
    destruct (VideoMode_eq_dec b m) as [-> | N].
    + rewrite !keep_first_filter, !filter_app; simpl.
      assert (VideoMode_eqb m m = true) as -> by (apply VideoMode_eqb_eq; reflexivity).
      reflexivity.
    + destruct I as [E | I]; [contradiction |].
      rewrite IH by exact I; reflexivity.
Qed.

Lemma keep_first_In candidates m : In m (keep_first candidates) <-> In m candidates.
Proof.
  rewrite <- fold_push_unique_from_empty, fold_push_unique_In; simpl; tauto.
Qed.

Lemma keep_first_NoDup candidates : NoDup (keep_first candidates).
Proof.
  rewrite <- fold_push_unique_from_empty.
  apply fold_push_unique_NoDup; constructor.
Qed.

(** ** The acquisition chain *)

Ltac answers H :=
  match type of H with
  | acquisitions_succeed ?x _ _ _ _ =>
      destruct x; destruct H as (? & ? & ? & ? & ?); simpl in *; subst
  end.

Lemma getFullscreenModes_fetched x display config res output_info depths :
  acquisitions_succeed x display config res output_info ->
  XListDepths x = Some depths ->
  result (run (getFullscreenModes x))
  = Some (scan_depths config res output_info depths []).
Proof.
  intros H D; answers H.
  destruct depths; reflexivity.
Qed.

Lemma getFullscreenModes_keep_first x display config res output_info depths :
  acquisitions_succeed x display config res output_info ->
  XListDepths x = Some depths ->
  result (run (getFullscreenModes x))
  = Some (keep_first (discovered (current_rotation config) (res_modes res)
                        (out_modes output_info) depths)).
Proof.
  intros H D.
  rewrite (getFullscreenModes_fetched _ _ _ _ _ _ H D).
  rewrite scan_depths_push, fold_push_unique_from_empty; reflexivity.
Qed.

(** The loop of [getDesktopMode] has no [break]: of the entries of the table
    that carry the identifier, the last one decides. *)
Lemma match_mode_info_none display config mode : forall table desktopMode,
  Forall (fun info => id info <> mode) table ->
  fold_left (match_mode_info display config mode) table desktopMode = desktopMode.
Proof.
  induction table as [| info table IH]; intros desktopMode F; simpl.
  - reflexivity.
  - inversion F as [| ? ? N F']; subst.
    rewrite IH by exact F'.
    unfold match_mode_info.
    destruct (mode =? id info) eqn:E; [| reflexivity].
    apply Z.eqb_eq in E; congruence.
Qed.

Lemma match_mode_info_last display config mode before info after desktopMode :
  id info = mode ->
  Forall (fun info' => id info' <> mode) after ->
  fold_left (match_mode_info display config mode) (before ++ info :: after) desktopMode
  = rotation_corrected (current_rotation config) info (DefaultDepth display).
Proof.
  intros E F.
  rewrite fold_left_app; simpl.
  rewrite match_mode_info_none by exact F.
  unfold match_mode_info.
  rewrite <- E, Z.eqb_refl.
  reflexivity.
Qed.

Lemma getDesktopMode_current x display config res output_info info :
  acquisitions_succeed x display config res output_info ->
  current_mode_info res output_info info ->
  result (run (getDesktopMode x))
  = Some (rotation_corrected (current_rotation config) info (DefaultDepth display)).
Proof.
  intros H (mode & rest & before & after & Eo & Er & Ei & F).
  answers H.
  destruct output_info as [output], res as [table]; simpl in *; subst output table.
  unfold run, getDesktopMode; simpl.
  f_equal; apply match_mode_info_last; [reflexivity | exact F].
Qed.

(** ** Properties of the entry points *)

(** C1. When every fetch of [getFullscreenModes] answers, then for every
    depth of the depth list and every identifier of the output's mode list
    that a descriptor of the resource table carries, the returned sequence
    holds exactly one mode equal to (descriptor width, descriptor height,
    depth) after rotation correction; and no two elements of the returned
    sequence are equal, whatever the number of (depth, identifier) pairs
    that produce the same triple. *)
Theorem getFullscreenModes_each_mode_once
    x display config res output_info depths :
  acquisitions_succeed x display config res output_info ->
  XListDepths x = Some depths ->
  exists modes,
    result (run (getFullscreenModes x)) = Some modes /\
    NoDup modes /\
    forall depth jmode info,
      In depth depths ->
      In jmode (out_modes output_info) ->
      In info (res_modes res) ->
      id info = jmode ->
      count_occ VideoMode_eq_dec modes
        (rotation_corrected (current_rotation config) info depth) = 1%nat.
Proof.
  intros H D.
  eexists; split; [exact (getFullscreenModes_keep_first _ _ _ _ _ _ H D) |].
  split; [apply keep_first_NoDup |].
  intros depth jmode info Id Ij Ii E.
  apply NoDup_count_occ'; [apply keep_first_NoDup |].
  apply keep_first_In, discovered_In.
  exists depth, jmode, info; auto.
Qed.

Lemma getFullscreenModes_each_mode_once_witness :
  exists modes,
    result (run (getFullscreenModes scenario_C)) = Some modes /\
    NoDup modes /\
    forall depth jmode info,
      In depth [24; 32] ->
      In jmode [M1] ->
      In info [full_hd] ->
      id info = jmode ->
      count_occ VideoMode_eq_dec modes
        (rotation_corrected RR_Rotate_0 info depth) = 1%nat.
Proof.
  apply (getFullscreenModes_each_mode_once scenario_C
           {| DefaultDepth := 24 |} {| current_rotation := RR_Rotate_0 |}
           {| res_modes := [full_hd] |} {| out_modes := [M1] |} [24; 32]).
  - repeat split.
  - reflexivity.
Defined.

Lemma rotation_rule_corrected rotation info depth m :
  rotation_rule rotation info depth m <-> m = rotation_corrected rotation info depth.
Proof.
  unfold rotation_rule, rotation_corrected.
  destruct (quarter_turnb rotation) eqn:E.
  - apply quarter_turnb_spec in E; tauto.
  - assert (~ quarter_turn rotation) as N
      by (rewrite <- quarter_turnb_spec; congruence).
    tauto.
Qed.

(** C2. In [getFullscreenModes] and in [getDesktopMode] alike, the width and
    the height of a mode are exchanged if and only if the current rotation
    is 90 or 270 degrees: the modes of the returned sequence are those of the
    matching descriptors with the axes exchanged on such a rotation and as
    reported on any other, the desktop mode is that of the current
    descriptor under the same rule, and 0 and 180 degrees are rotations that
    leave the axes as reported. *)
Theorem rotation_rule_of_both_entry_points x display config res output_info :
  acquisitions_succeed x display config res output_info ->
  (forall depths,
     XListDepths x = Some depths ->
     exists modes,
       result (run (getFullscreenModes x)) = Some modes /\
       forall m,
         In m modes <->
         exists depth info,
           In depth depths /\
           In (id info) (out_modes output_info) /\
           In info (res_modes res) /\
           rotation_rule (current_rotation config) info depth m) /\
  (forall info,
     current_mode_info res output_info info ->
     exists m,
       result (run (getDesktopMode x)) = Some m /\
       rotation_rule (current_rotation config) info (DefaultDepth display) m) /\
  ~ quarter_turn RR_Rotate_0 /\
  ~ quarter_turn RR_Rotate_180.
Proof.
  intros H.
  split; [| split; [| split]].
  - intros depths D.
    eexists; split; [exact (getFullscreenModes_keep_first _ _ _ _ _ _ H D) |].
    intros m.
    rewrite keep_first_In, discovered_In.
    split.
    + intros (depth & jmode & info & Id & Ij & Ii & E & ->).
      exists depth, info; subst jmode.
      repeat split; try assumption.
      apply rotation_rule_corrected; reflexivity.
    + intros (depth & info & Id & Ij & Ii & R).
      apply rotation_rule_corrected in R.
      exists depth, (id info), info; auto.
  - intros info C.
    eexists; split; [exact (getDesktopMode_current _ _ _ _ _ _ H C) |].
    apply rotation_rule_corrected; reflexivity.
  - intros [E | E]; discriminate E.
  - intros [E | E]; discriminate E.
Qed.

Lemma rotation_rule_of_both_entry_points_witness :
  (exists modes,
     result (run (getFullscreenModes scenario_B)) = Some modes /\
     forall m,
       In m modes <->
       exists depth info,
         In depth [24] /\ In (id info) [M1] /\ In info [full_hd] /\
         rotation_rule RR_Rotate_90 info depth m) /\
  (exists m,
     result (run (getDesktopMode scenario_B)) = Some m /\
     rotation_rule RR_Rotate_90 full_hd 24 m).
Proof.
  pose proof (rotation_rule_of_both_entry_points scenario_B
                {| DefaultDepth := 24 |} {| current_rotation := RR_Rotate_90 |}
                {| res_modes := [full_hd] |} {| out_modes := [M1] |}) as R.
  destruct R as (F & G & _).
  - repeat split.
  - split.
    + apply (F [24]); reflexivity.
    + apply (G full_hd).
      exists M1, [], [], []; repeat split; constructor.
Defined.

(** C3. [getFullscreenModes] always returns a sequence, never an error
    signal, and the sequence is empty whenever the connection cannot be
    opened, the extension is absent, or one of the fetches that follow
    (screen configuration, resource table, output descriptor, depth list)
    fails. *)
Theorem getFullscreenModes_failure_empty x :
  (exists modes log, run (getFullscreenModes x) = Returns modes log) /\
  (OpenDisplay x = None \/
   XQueryExtension x = false \/
   XRRGetScreenInfo x = None \/
   XRRGetScreenResources x = None \/
   XRRGetOutputInfo x = None \/
   XListDepths x = None \/
   XListDepths x = Some [] ->
   result (run (getFullscreenModes x)) = Some []).
Proof.
  destruct x as [[display |] [|] [config |] [res |] [output_info |] [[| depth depths] |]];
    (split; [do 2 eexists; reflexivity |]);
    simpl; intros F;
    try reflexivity;
    repeat (destruct F as [F | F]; try discriminate F);
    discriminate F.
Qed.

Lemma getFullscreenModes_failure_empty_witness :
  result (run (getFullscreenModes resources_unavailable)) = Some [].
Proof.
  apply (proj2 (getFullscreenModes_failure_empty resources_unavailable)).
  right; right; right; left; reflexivity.
Defined.

(** C4. [getDesktopMode] returns the zero-valued mode, and no error signal,
    whenever an acquisition step fails: the connection cannot be opened, the
    extension is absent, or a fetch (screen configuration, resource table,
    output descriptor) fails. *)
Theorem getDesktopMode_failure_zero x :
  OpenDisplay x = None \/
  XQueryExtension x = false \/
  XRRGetScreenInfo x = None \/
  XRRGetScreenResources x = None \/
  XRRGetOutputInfo x = None ->
  result (run (getDesktopMode x))
  = Some {| width := 0; height := 0; bitsPerPixel := 0 |}.
Proof.
  destruct x as [[display |] [|] [config |] [res |] [output_info |] depths];
    simpl; intros F;
    try reflexivity;
    repeat (destruct F as [F | F]; try discriminate F);
    discriminate F.
Qed.

Lemma getDesktopMode_failure_zero_witness :
  result (run (getDesktopMode config_unavailable))
  = Some {| width := 0; height := 0; bitsPerPixel := 0 |}.
Proof.
  apply (getDesktopMode_failure_zero config_unavailable).
  right; right; left; reflexivity.
Defined.

(** C5 fails as stated: when the resource table cannot be fetched the empty
    sequence is returned and nothing is written. *)
Lemma failed_fetch_not_reported : ~ failed_fetch_reported resources_unavailable.
Proof.
  intros R.
  destruct (R ResourceStep) as (line & D & _).
  - simpl; auto.
  - reflexivity.
  - discriminate D.
Qed.

(** C5, amended. Of the fetches of [getFullscreenModes], the screen
    configuration is the one whose failure is reported: exactly one line,
    naming that step, is written before the empty sequence is returned.  A
    failing fetch of the resource table, of the output descriptor or of the
    depth list returns the empty sequence and writes nothing. *)
Theorem getFullscreenModes_fetch_failure_lines x :
  (first_failure x = Some ConfigStep ->
   result (run (getFullscreenModes x)) = Some [] /\
   diagnostics (log_of (run (getFullscreenModes x)))
   = ["Failed to retrieve the screen configuration while trying to get the supported video modes"%string]) /\
  (first_failure x = Some ResourceStep \/
   first_failure x = Some OutputStep \/
   first_failure x = Some DepthStep ->
   result (run (getFullscreenModes x)) = Some [] /\
   diagnostics (log_of (run (getFullscreenModes x))) = []).
Proof.
  destruct x as [[display |] [|] [config |] [res |] [output_info |] [[| depth depths] |]];
    split; simpl; intros F;
    try (split; reflexivity);
    try discriminate F;
    repeat (destruct F as [F | F]; try discriminate F).
Qed.

Lemma getFullscreenModes_fetch_failure_lines_witness :
  (result (run (getFullscreenModes config_unavailable)) = Some [] /\
   diagnostics (log_of (run (getFullscreenModes config_unavailable)))
   = ["Failed to retrieve the screen configuration while trying to get the supported video modes"%string]) /\
  (result (run (getFullscreenModes resources_unavailable)) = Some [] /\
   diagnostics (log_of (run (getFullscreenModes resources_unavailable))) = []).
Proof.
  split.
  - apply (proj1 (getFullscreenModes_fetch_failure_lines config_unavailable)).
    reflexivity.
  - apply (proj2 (getFullscreenModes_fetch_failure_lines resources_unavailable)).
    left; reflexivity.
Defined.

(** C6. When every acquisition step succeeds, [getDesktopMode] takes the
    identifier at position zero of the output's mode list, finds its
    descriptor in the resource table for the width and the height, takes the
    default depth of the screen (no depth list is consulted) as
    [bitsPerPixel], and applies the rotation rule; with output modes
    [M7, M9], the table {M7:(1280,720)}, default depth 24 and a rotation of
    180 degrees the result is VideoMode(1280,720,24). *)
Theorem getDesktopMode_current_mode x display config res output_info info :
  acquisitions_succeed x display config res output_info ->
  current_mode_info res output_info info ->
  result (run (getDesktopMode x))
  = Some (if quarter_turnb (current_rotation config)
          then {| width := X11.height info; height := X11.width info;
                  bitsPerPixel := uint_of_int (DefaultDepth display) |}
          else {| width := X11.width info; height := X11.height info;
                  bitsPerPixel := uint_of_int (DefaultDepth display) |}) /\
  result (run (getDesktopMode scenario_E))
  = Some {| width := 1280; height := 720; bitsPerPixel := 24 |}.
Proof.
  intros H C; split; [| reflexivity].
  exact (getDesktopMode_current _ _ _ _ _ _ H C).
Qed.

Lemma getDesktopMode_current_mode_witness :
  result (run (getDesktopMode scenario_E))
  = Some {| width := 1280; height := 720; bitsPerPixel := 24 |}.
Proof.
  apply (getDesktopMode_current_mode scenario_E
           {| DefaultDepth := 24 |} {| current_rotation := RR_Rotate_180 |}
           {| res_modes := [hd] |} {| out_modes := [M7; M9] |} hd).
  - repeat split.
  - exists M7, [M9], [], []; repeat split; constructor.
Defined.

(** C7. The sequence returned by [getFullscreenModes] follows the order of
    discovery (depth-major, then the position in the output's mode list,
    then the position in the resource table), and of equal values the one
    discovered first is kept and the later ones are dropped; with depths
    [24, 32] and one output mode of 1920 by 1080 the result is
    [(1920,1080,24), (1920,1080,32)], in that order. *)
Theorem getFullscreenModes_discovery_order
    x display config res output_info depths :
  acquisitions_succeed x display config res output_info ->
  XListDepths x = Some depths ->
  result (run (getFullscreenModes x))
  = Some (keep_first
            (discovered (current_rotation config) (res_modes res)
               (out_modes output_info) depths)) /\
  result (run (getFullscreenModes scenario_C))
  = Some [ {| width := 1920; height := 1080; bitsPerPixel := 24 |};
           {| width := 1920; height := 1080; bitsPerPixel := 32 |} ].
Proof.
  intros H D; split; [| reflexivity].
  exact (getFullscreenModes_keep_first _ _ _ _ _ _ H D).
Qed.

Lemma getFullscreenModes_discovery_order_witness :
  result (run (getFullscreenModes scenario_C))
  = Some (keep_first (discovered RR_Rotate_0 [full_hd] [M1] [24; 32])).
Proof.
  apply (getFullscreenModes_discovery_order scenario_C
           {| DefaultDepth := 24 |} {| current_rotation := RR_Rotate_0 |}
           {| res_modes := [full_hd] |} {| out_modes := [M1] |} [24; 32]).
  - repeat split.
  - reflexivity.
Defined.

(** Two identifiers of the output with the same size give one mode per
    depth, at the place of the first. *)
Example duplicates_suppressed :
  result (run (getFullscreenModes
    (server RR_Rotate_0
       [ full_hd; {| id := 2; X11.width := 1920; X11.height := 1080 |}; hd ]
       [M1; 2; M7] [24; 32] 24)))
  = Some [ {| width := 1920; height := 1080; bitsPerPixel := 24 |};
           {| width := 1280; height := 720; bitsPerPixel := 24 |};
           {| width := 1920; height := 1080; bitsPerPixel := 32 |};
           {| width := 1280; height := 720; bitsPerPixel := 32 |} ].
Proof. reflexivity. Qed.

(** C8. [getDesktopMode] reads position zero of the output's mode list
    without a check of its length: when every acquisition step succeeds, the
    outcome is the undefined read outside the array exactly when that list
    is empty. *)
Theorem getDesktopMode_undefined_iff_no_mode x display config res output_info :
  acquisitions_succeed x display config res output_info ->
  run (getDesktopMode x) = Undefined <-> out_modes output_info = [].
Proof.
  intros H; answers H.
  destruct output_info as [[| mode rest]]; simpl.
  - split; reflexivity.
  - split; intros E; discriminate E.
Qed.

Lemma getDesktopMode_undefined_iff_no_mode_witness :
  run (getDesktopMode no_output_mode) = Undefined <-> @nil RRMode = [].
Proof.
  apply (getDesktopMode_undefined_iff_no_mode no_output_mode
           {| DefaultDepth := 24 |} {| current_rotation := RR_Rotate_0 |}
           {| res_modes := [full_hd] |} {| out_modes := [] |}).
  repeat split.
Defined.

(** C10. When every acquisition step succeeds and no entry of the resource
    table carries the identifier at position zero of the output's mode
    list, [getDesktopMode] returns the zero-valued default mode and writes
    no diagnostic line. *)
Theorem getDesktopMode_unmatched_silent
    x display config res output_info mode rest :
  acquisitions_succeed x display config res output_info ->
  out_modes output_info = mode :: rest ->
  Forall (fun info => id info <> mode) (res_modes res) ->
  exists log,
    run (getDesktopMode x)
    = Returns {| width := 0; height := 0; bitsPerPixel := 0 |} log /\
    diagnostics log = [].
Proof.
  intros H E F; answers H.
  destruct output_info as [output]; simpl in E; subst output.
  cbv [run getDesktopMode bind ret emit call free first_element]; simpl.
  rewrite match_mode_info_none by exact F.
  eexists; split; reflexivity.
Qed.

Lemma getDesktopMode_unmatched_silent_witness :
  exists log,
    run (getDesktopMode unknown_mode)
    = Returns {| width := 0; height := 0; bitsPerPixel := 0 |} log /\
    diagnostics log = [].
Proof.
  apply (getDesktopMode_unmatched_silent unknown_mode
           {| DefaultDepth := 24 |} {| current_rotation := RR_Rotate_0 |}
           {| res_modes := [full_hd] |} {| out_modes := [M9; M1] |} M9 [M1]).
  - repeat split.
  - reflexivity.
  - repeat constructor; discriminate.
Defined.

(** ** Release of the native handles *)

Ltac handles_balanced :=
  unfold released_in_reverse; simpl;
  split;
  [ repeat (apply NoDup_cons; [simpl; intuition discriminate |]); apply NoDup_nil
  | split; reflexivity ].

(** [getDesktopMode] gives back what it obtained whenever it returns. *)
Lemma getDesktopMode_released x mode log :
  run (getDesktopMode x) = Returns mode log -> released_in_reverse log.
Proof.
  destruct x as [[display |] [|] [config |] [res |] [[[| m rest]] |] depths];
    simpl; intros E; try discriminate E;
    injection E as _ <-; handles_balanced.
Qed.

(** [getFullscreenModes] gives back what it obtained, unless [XListDepths]
    answers an array and a count that is not positive. *)
Lemma getFullscreenModes_released x :
  XListDepths x <> Some [] ->
  released_in_reverse (log_of (run (getFullscreenModes x))).
Proof.
  destruct x as [[display |] [|] [config |] [res |] [output_info |] [[| depth depths] |]];
    simpl; intros N; try (contradiction N; reflexivity);
    handles_balanced.
Qed.

(** The condition on [XListDepths] cannot be dropped from the embedding: at
    a non-null array with [nbDepths] equal to zero the test
    [depths && (nbDepths > 0)] fails, the block that ends in [XFree(depths)]
    is skipped, and the array of depths is not given back.  [XListDepths]
    does not give that answer: it answers NULL when the screen has no depth
    or the array cannot be allocated. *)
Lemma getFullscreenModes_depth_array_kept :
  let log := log_of (run (getFullscreenModes no_depth)) in
  result (run (getFullscreenModes no_depth)) = Some [] /\
  acquired log = [Connection; ScreenConfig; ScreenResources; OutputInfo; DepthArray] /\
  released log = [OutputInfo; ScreenResources; ScreenConfig; Connection] /\
  outstanding log [] = None /\
  ~ released_in_reverse log.
Proof.
  simpl; repeat split.
  intros (_ & E & _); discriminate E.
Qed.



(** * Further properties of the entry points *)

(** ** Lists *)

Lemma keep_first_length candidates :
  (length (keep_first candidates) <= length candidates)%nat.
Proof.
  induction candidates as [| c candidates IH]; simpl; [apply le_n |].
  apply le_n_S.
  etransitivity; [apply filter_length_le | exact IH].
Qed.

Lemma flat_map_length_le {A B : Type} (f : A -> list B) (k : nat) (l : list A) :
  (forall a, In a l -> (length (f a) <= k)%nat) ->
  (length (flat_map f l) <= length l * k)%nat.
Proof.
  induction l as [| a l IH]; intros H; simpl; [apply le_n |].
  rewrite length_app.
  apply Nat.add_le_mono.
  - apply H; left; reflexivity.
  - apply IH; intros b I; apply H; right; exact I.
Qed.

Lemma discovered_length rotation table output depths :
  (length (discovered rotation table output depths)
   <= length depths * length output * length table)%nat.
Proof.
  unfold discovered.
  rewrite <- Nat.mul_assoc.
  apply flat_map_length_le; intros depth _.
  apply flat_map_length_le; intros jmode _.
  rewrite length_map; apply filter_length_le.
Qed.

Lemma uint_of_int_range z : 0 <= uint_of_int z < 2 ^ 32.
Proof. unfold uint_of_int; apply Z.mod_pos_bound; reflexivity. Qed.

Lemma uint_of_int_small z : 0 <= z < 2 ^ 32 -> uint_of_int z = z.
Proof. intros R; unfold uint_of_int; apply Z.mod_small; exact R. Qed.

Lemma rotation_corrected_bits rotation info depth :
  bitsPerPixel (rotation_corrected rotation info depth) = uint_of_int depth.
Proof.
  unfold rotation_corrected; destruct (quarter_turnb rotation); reflexivity.
Qed.

(** ** The sequence of [getFullscreenModes] *)

(** X1. The sequence returned by [getFullscreenModes] has at most as many
    elements as there are triples of a depth, an identifier of the output
    and a descriptor of the resource table. *)
Theorem getFullscreenModes_length_bound
    x display config res output_info depths :
  acquisitions_succeed x display config res output_info ->
  XListDepths x = Some depths ->
  exists modes,
    result (run (getFullscreenModes x)) = Some modes /\
    (length modes
     <= length depths * length (out_modes output_info) * length (res_modes res))%nat.
Proof.
  intros H D.
  eexists; split; [exact (getFullscreenModes_keep_first _ _ _ _ _ _ H D) |].
  etransitivity; [apply keep_first_length | apply discovered_length].
Qed.

Lemma getFullscreenModes_length_bound_witness :
  exists modes,
    result (run (getFullscreenModes two_sizes)) = Some modes /\
    (length modes <= 2 * 2 * 2)%nat.
Proof.
  apply (getFullscreenModes_length_bound two_sizes
           {| DefaultDepth := 24 |} {| current_rotation := RR_Rotate_270 |}
           {| res_modes := [full_hd; hd] |} {| out_modes := [M7; M1] |} [16; 24]).
  - repeat split.
  - reflexivity.
Defined.

(** X2. The [bitsPerPixel] of every mode returned by [getFullscreenModes]
    is a depth of the depth list converted to [unsigned int]: it lies in
    [0, 2^32), and it is itself a depth of the list when the depths of the
    list are not negative. *)
Theorem getFullscreenModes_bits_per_pixel
    x display config res output_info depths :
  acquisitions_succeed x display config res output_info ->
  XListDepths x = Some depths ->
  exists modes,
    result (run (getFullscreenModes x)) = Some modes /\
    forall m,
      In m modes ->
      0 <= bitsPerPixel m < 2 ^ 32 /\
      In (bitsPerPixel m) (map uint_of_int depths) /\
      ((forall depth, In depth depths -> 0 <= depth < 2 ^ 32) ->
       In (bitsPerPixel m) depths).
Proof.
  intros H D.
  eexists; split; [exact (getFullscreenModes_keep_first _ _ _ _ _ _ H D) |].
  intros m I.
  apply keep_first_In, discovered_In in I.
  destruct I as (depth & jmode & info & Id & _ & _ & _ & ->).
  rewrite rotation_corrected_bits.
  split; [apply uint_of_int_range |].
  split; [apply in_map; exact Id |].
  intros R; rewrite uint_of_int_small by (apply R; exact Id); exact Id.
Qed.

Lemma getFullscreenModes_bits_per_pixel_witness :
  exists modes,
    result (run (getFullscreenModes two_sizes)) = Some modes /\
    forall m,
      In m modes ->
      0 <= bitsPerPixel m < 2 ^ 32 /\ In (bitsPerPixel m) [16; 24].
Proof.
  destruct (getFullscreenModes_bits_per_pixel two_sizes
              {| DefaultDepth := 24 |} {| current_rotation := RR_Rotate_270 |}
              {| res_modes := [full_hd; hd] |} {| out_modes := [M7; M1] |} [16; 24])
    as (modes & R & P).
  - repeat split.
  - reflexivity.
  - exists modes; split; [exact R |].
    intros m I.
    destruct (P m I) as (A & _ & B).
    split; [exact A |].
    apply B.
    intros depth [<- | [<- | []]]; (split; [intros C; discriminate C | reflexivity]).
Defined.

(** X3. When every fetch answers and the depth list is not empty, the
    sequence returned by [getFullscreenModes] is empty exactly when no
    descriptor of the resource table carries an identifier of the output's
    mode list. *)
Theorem getFullscreenModes_empty_iff_unmatched
    x display config res output_info depths :
  acquisitions_succeed x display config res output_info ->
  XListDepths x = Some depths ->
  depths <> [] ->
  exists modes,
    result (run (getFullscreenModes x)) = Some modes /\
    (modes = [] <->
     forall info,
       In info (res_modes res) -> ~ In (id info) (out_modes output_info)).
Proof.
  intros H D N.
  eexists; split; [exact (getFullscreenModes_keep_first _ _ _ _ _ _ H D) |].
  split.
  - intros E info Ii Ij.
    destruct depths as [| depth depths]; [contradiction N; reflexivity |].
    assert (In (rotation_corrected (current_rotation config) info depth)
              (keep_first (discovered (current_rotation config) (res_modes res)
                             (out_modes output_info) (depth :: depths)))) as I.
    { apply keep_first_In, discovered_In.
      exists depth, (id info), info; simpl; auto. }
    rewrite E in I; destruct I.
  - intros U.
    destruct (keep_first _) as [| m modes] eqn:E; [reflexivity | exfalso].
    assert (In m (m :: modes)) as I by (left; reflexivity).
    rewrite <- E in I.
    apply keep_first_In, discovered_In in I.
    destruct I as (depth & jmode & info & _ & Ij & Ii & <- & _).
    exact (U info Ii Ij).
Qed.

Lemma getFullscreenModes_empty_iff_unmatched_witness :
  exists modes,
    result (run (getFullscreenModes unknown_mode)) = Some modes /\
    (modes = [] <->
     forall info, In info [full_hd] -> ~ In (id info) [M9; M1]).
Proof.
  apply (getFullscreenModes_empty_iff_unmatched unknown_mode
           {| DefaultDepth := 24 |} {| current_rotation := RR_Rotate_0 |}
           {| res_modes := [full_hd] |} {| out_modes := [M9; M1] |} [24]).
  - repeat split.
  - reflexivity.
  - discriminate.
Defined.

(** On a server where every fetch answers, the sequence is the discovered
    candidates with the first of equal values kept. *)
Lemma getFullscreenModes_server rotation table output depths default_depth :
  result (run (getFullscreenModes (server rotation table output depths default_depth)))
  = Some (keep_first (discovered rotation table output depths)).
Proof.
  apply (getFullscreenModes_keep_first _
           {| DefaultDepth := default_depth |} {| current_rotation := rotation |}
           {| res_modes := table |} {| out_modes := output |} depths).
  - repeat split.
  - reflexivity.
Qed.

Lemma VideoMode_eqb_swap a b :
  VideoMode_eqb (swap_width_height a) (swap_width_height b) = VideoMode_eqb a b.
Proof.
  unfold VideoMode_eqb, swap_width_height; simpl.
  rewrite (andb_comm (height a =? height b)); reflexivity.
Qed.

Lemma keep_first_swap candidates :
  keep_first (map swap_width_height candidates)
  = map swap_width_height (keep_first candidates).
Proof.
  induction candidates as [| c candidates IH]; simpl; [reflexivity |].
  f_equal.
  rewrite IH, filter_map_swap.
  f_equal; apply filter_ext; intros a.
  rewrite VideoMode_eqb_swap; reflexivity.
Qed.

Lemma discovered_map (f : VideoMode -> VideoMode) r r' table output depths :
  (forall info depth,
     rotation_corrected r info depth = f (rotation_corrected r' info depth)) ->
  discovered r table output depths = map f (discovered r' table output depths).
Proof.
  intros E; unfold discovered.
  induction depths as [| depth depths IHd]; simpl; [reflexivity |].
  rewrite map_app, <- IHd; f_equal.
  clear IHd.
  induction output as [| jmode output IHo]; simpl; [reflexivity |].
  rewrite map_app, <- IHo; f_equal.
  rewrite map_map; apply map_ext; intros info; apply E.
Qed.

(** X4. The sequence of [getFullscreenModes] depends on the rotation only
    through the test for a quarter or three-quarter turn, and the sequence
    under such a turn is, element by element and in the same order, the
    sequence under any other rotation with width and height exchanged. *)
Theorem getFullscreenModes_rotation_mirror
    r r' table output depths default_depth :
  (quarter_turnb r = quarter_turnb r' ->
   result (run (getFullscreenModes (server r table output depths default_depth)))
   = result (run (getFullscreenModes (server r' table output depths default_depth)))) /\
  (quarter_turn r -> ~ quarter_turn r' ->
   result (run (getFullscreenModes (server r table output depths default_depth)))
   = option_map (map swap_width_height)
       (result (run (getFullscreenModes (server r' table output depths default_depth))))).
Proof.
  rewrite !getFullscreenModes_server; simpl.
  split.
  - intros E.
    rewrite (discovered_map (fun m => m) r r'), map_id; [reflexivity |].
    intros info depth; unfold rotation_corrected; rewrite E; reflexivity.
  - intros Q N.
    rewrite <- keep_first_swap.
    rewrite <- (discovered_map swap_width_height r r'); [reflexivity |].
    intros info depth.
    rewrite (rotation_corrected_quarter _ _ _ Q), (rotation_corrected_upright _ _ _ N).
    reflexivity.
Qed.

Lemma getFullscreenModes_rotation_mirror_witness :
  result (run (getFullscreenModes
     (server RR_Rotate_270 [full_hd; hd] [M7; M1] [16; 24] 24)))
  = result (run (getFullscreenModes
     (server RR_Rotate_90 [full_hd; hd] [M7; M1] [16; 24] 24))) /\
  result (run (getFullscreenModes
     (server RR_Rotate_270 [full_hd; hd] [M7; M1] [16; 24] 24)))
  = option_map (map swap_width_height)
      (result (run (getFullscreenModes
         (server RR_Rotate_180 [full_hd; hd] [M7; M1] [16; 24] 24)))).
Proof.
  split.
  - apply (proj1 (getFullscreenModes_rotation_mirror
                    RR_Rotate_270 RR_Rotate_90 [full_hd; hd] [M7; M1] [16; 24] 24)).
    reflexivity.
  - apply (proj2 (getFullscreenModes_rotation_mirror
                    RR_Rotate_270 RR_Rotate_180 [full_hd; hd] [M7; M1] [16; 24] 24)).
    + right; reflexivity.
    + intros [E | E]; discriminate E.
Defined.

Lemma fold_push_unique_absorbed candidates : forall modes,
  incl candidates modes -> fold_left push_unique candidates modes = modes.
Proof.
  induction candidates as [| c candidates IH]; intros modes I; simpl; [reflexivity |].
  assert (push_unique modes c = modes) as ->.
  { unfold push_unique.
    assert (not_found modes c = false) as ->; [| reflexivity].
    apply not_found_false, I; left; reflexivity. }
  apply IH; intros m Im; apply I; right; exact Im.
Qed.

Lemma fold_push_unique_repeat before again after modes :
  incl again before ->
  fold_left push_unique (before ++ again ++ after) modes
  = fold_left push_unique (before ++ after) modes.
Proof.
  intros I.
  rewrite !fold_left_app; f_equal.
  apply fold_push_unique_absorbed.
  intros m Im; apply fold_push_unique_In; right; apply I; exact Im.
Qed.

(** X5. Depths are handled one after the other: the sequence for a depth
    list is a prefix of the sequence for that list with further depths at
    its end. *)
Theorem getFullscreenModes_depths_prefix
    rotation table output depths more default_depth :
  exists modes rest,
    result (run (getFullscreenModes
      (server rotation table output depths default_depth))) = Some modes /\
    result (run (getFullscreenModes
      (server rotation table output (depths ++ more) default_depth)))
    = Some (modes ++ rest).
Proof.
  rewrite !getFullscreenModes_server.
  do 2 eexists; split; [reflexivity |].
  f_equal.
  rewrite <- !fold_push_unique_from_empty.
  unfold discovered; rewrite flat_map_app, fold_left_app.
  apply fold_push_unique_keep_first.
Qed.

(** X6. A depth that the depth list holds a second time adds nothing: the
    sequence is the one for the list without the later occurrence. *)
Theorem getFullscreenModes_repeated_depth
    rotation table output before depth after default_depth :
  In depth before ->
  result (run (getFullscreenModes
    (server rotation table output (before ++ depth :: after) default_depth)))
  = result (run (getFullscreenModes
      (server rotation table output (before ++ after) default_depth))).
Proof.
  intros I.
  rewrite !getFullscreenModes_server; f_equal.
  rewrite <- !fold_push_unique_from_empty.
  unfold discovered; rewrite !flat_map_app; simpl.
  apply fold_push_unique_repeat.
  intros m Im; apply in_flat_map; exists depth; split; assumption.
Qed.

Lemma getFullscreenModes_repeated_depth_witness :
  result (run (getFullscreenModes repeated_depth))
  = result (run (getFullscreenModes
      (server RR_Rotate_0 [full_hd; hd] [M1; M7] [24; 32] 24))).
Proof.
  apply (getFullscreenModes_repeated_depth
           RR_Rotate_0 [full_hd; hd] [M1; M7] [24; 32] 24 [] 24).
  left; reflexivity.
Defined.

(** X7. An identifier that the output's mode list holds a second time adds
    nothing: the sequence is the one for the list without the later
    occurrence. *)
Theorem getFullscreenModes_repeated_output_mode
    rotation table before jmode after depths default_depth :
  In jmode before ->
  result (run (getFullscreenModes
    (server rotation table (before ++ jmode :: after) depths default_depth)))
  = result (run (getFullscreenModes
      (server rotation table (before ++ after) depths default_depth))).
Proof.
  intros I.
  rewrite !getFullscreenModes_server; f_equal.
  rewrite <- !fold_push_unique_from_empty.
  unfold discovered.
  generalize (@nil VideoMode) as modes.
  induction depths as [| depth depths IH]; intros modes; simpl; [reflexivity |].
  rewrite !fold_left_app, !flat_map_app; simpl.
  rewrite fold_push_unique_repeat.
  - apply IH.
  - intros m Im; apply in_flat_map; exists jmode; split; assumption.
Qed.

Lemma getFullscreenModes_repeated_output_mode_witness :
  result (run (getFullscreenModes
    (server RR_Rotate_0 [full_hd; hd] [M1; M7; M1] [24; 32] 24)))
  = result (run (getFullscreenModes
      (server RR_Rotate_0 [full_hd; hd] [M1; M7] [24; 32] 24))).
Proof.
  apply (getFullscreenModes_repeated_output_mode
           RR_Rotate_0 [full_hd; hd] [M1; M7] M1 [] [24; 32] 24).
  left; reflexivity.
Defined.

(** ** Diagnostics *)

(** X8. The three failures that [getFullscreenModes] reports: a refused
    connection writes its line and touches nothing else; a missing
    extension and a missing screen configuration write their line while the
    connection is open and close it afterwards.  On every server at most one
    line is written, and none exactly when these three steps succeed. *)
Theorem getFullscreenModes_reported_failures x :
  (OpenDisplay x = None ->
   run (getFullscreenModes x)
   = Returns []
       [ ErrLine "Failed to connect to the X server while trying to get the supported video modes" ]) /\
  (OpenDisplay x <> None -> XQueryExtension x = false ->
   run (getFullscreenModes x)
   = Returns []
       [ Acquire Connection;
         ErrLine "Failed to use the XRandR extension while trying to get the supported video modes";
         Release Connection ]) /\
  (OpenDisplay x <> None -> XQueryExtension x = true -> XRRGetScreenInfo x = None ->
   run (getFullscreenModes x)
   = Returns []
       [ Acquire Connection;
         ErrLine "Failed to retrieve the screen configuration while trying to get the supported video modes";
         Release Connection ]) /\
  (length (diagnostics (log_of (run (getFullscreenModes x)))) <= 1)%nat /\
  (diagnostics (log_of (run (getFullscreenModes x))) = [] <->
   OpenDisplay x <> None /\ XQueryExtension x = true /\ XRRGetScreenInfo x <> None).
Proof.
  destruct x as [[display |] [|] [config |] [res |] [output_info |] [[| depth depths] |]];
    simpl;
    (split; [intros E; first [reflexivity | discriminate E] |]);
    (split; [intros N E; first [reflexivity | discriminate E | contradiction N; reflexivity] |]);
    (split; [intros N E E'; first [reflexivity | discriminate E | discriminate E' | contradiction N; reflexivity] |]);
    (split; [repeat constructor |]);
    (split;
     [ intros E; first [discriminate E | repeat split; discriminate]
     | intros (N1 & N2 & N3);
       first [reflexivity | discriminate N2
             | contradiction N1; reflexivity | contradiction N3; reflexivity] ]).
Qed.

Lemma getFullscreenModes_reported_failures_witness :
  run (getFullscreenModes connection_refused)
  = Returns []
      [ ErrLine "Failed to connect to the X server while trying to get the supported video modes" ] /\
  run (getFullscreenModes scenario_D)
  = Returns []
      [ Acquire Connection;
        ErrLine "Failed to use the XRandR extension while trying to get the supported video modes";
        Release Connection ] /\
  run (getFullscreenModes config_unavailable)
  = Returns []
      [ Acquire Connection;
        ErrLine "Failed to retrieve the screen configuration while trying to get the supported video modes";
        Release Connection ].
Proof.
  split; [| split].
  - apply (proj1 (getFullscreenModes_reported_failures connection_refused)).
    reflexivity.
  - apply (proj1 (proj2 (getFullscreenModes_reported_failures scenario_D)));
      [discriminate | reflexivity].
  - apply (proj1 (proj2 (proj2 (getFullscreenModes_reported_failures config_unavailable))));
      [discriminate | reflexivity | reflexivity].
Defined.

(** X9. The three failures that [getDesktopMode] reports, with the lines of
    its own: each returns the zero-valued mode; a refused connection touches
    nothing else, the two others close the connection after the line.
    Whenever [getDesktopMode] returns, it has written no line exactly when
    these three steps succeeded. *)
Theorem getDesktopMode_reported_failures x :
  (OpenDisplay x = None ->
   run (getDesktopMode x)
   = Returns VideoMode_default
       [ ErrLine "Failed to connect to the X server while trying to get the desktop video modes" ]) /\
  (OpenDisplay x <> None -> XQueryExtension x = false ->
   run (getDesktopMode x)
   = Returns VideoMode_default
       [ Acquire Connection;
         ErrLine "Failed to use the XRandR extension while trying to get the desktop video modes";
         Release Connection ]) /\
  (OpenDisplay x <> None -> XQueryExtension x = true -> XRRGetScreenInfo x = None ->
   run (getDesktopMode x)
   = Returns VideoMode_default
       [ Acquire Connection;
         ErrLine "Failed to retrieve the screen configuration while trying to get the desktop video modes";
         Release Connection ]) /\
  (forall mode log,
     run (getDesktopMode x) = Returns mode log ->
     (length (diagnostics log) <= 1)%nat /\
     (diagnostics log = [] <->
      OpenDisplay x <> None /\ XQueryExtension x = true /\ XRRGetScreenInfo x <> None)).
Proof.
  destruct x as [[display |] [|] [config |] [res |] [[[| m rest]] |] depths];
    simpl;
    (split; [intros E; first [reflexivity | discriminate E] |]);
    (split; [intros N E; first [reflexivity | discriminate E | contradiction N; reflexivity] |]);
    (split; [intros N E E'; first [reflexivity | discriminate E | discriminate E' | contradiction N; reflexivity] |]);
    intros mode log R; try discriminate R;
    injection R as _ <-; simpl;
    (split; [repeat constructor |]);
    (split;
     [ intros E; first [discriminate E | repeat split; discriminate]
     | intros (N1 & N2 & N3);
       first [reflexivity | discriminate N2
             | contradiction N1; reflexivity | contradiction N3; reflexivity] ]).
Qed.

Lemma getDesktopMode_reported_failures_witness :
  run (getDesktopMode connection_refused)
  = Returns VideoMode_default
      [ ErrLine "Failed to connect to the X server while trying to get the desktop video modes" ] /\
  run (getDesktopMode scenario_D)
  = Returns VideoMode_default
      [ Acquire Connection;
        ErrLine "Failed to use the XRandR extension while trying to get the desktop video modes";
        Release Connection ] /\
  run (getDesktopMode config_unavailable)
  = Returns VideoMode_default
      [ Acquire Connection;
        ErrLine "Failed to retrieve the screen configuration while trying to get the desktop video modes";
        Release Connection ] /\
  ((length (diagnostics (log_of (run (getDesktopMode scenario_E)))) <= 1)%nat /\
   (diagnostics (log_of (run (getDesktopMode scenario_E))) = [] <->
    OpenDisplay scenario_E <> None /\ XQueryExtension scenario_E = true /\
    XRRGetScreenInfo scenario_E <> None)).
Proof.
  split; [| split; [| split]].
  - apply (proj1 (getDesktopMode_reported_failures connection_refused)).
    reflexivity.
  - apply (proj1 (proj2 (getDesktopMode_reported_failures scenario_D)));
      [discriminate | reflexivity].
  - apply (proj1 (proj2 (proj2 (getDesktopMode_reported_failures config_unavailable))));
      [discriminate | reflexivity | reflexivity].
  - apply (proj2 (proj2 (proj2 (getDesktopMode_reported_failures scenario_E)))
             {| width := 1280; height := 720; bitsPerPixel := 24 |}).
    reflexivity.
Defined.

(** ** Handles *)

(** X10. Once the connection is open, [getFullscreenModes] closes it on
    every path, whatever fails afterwards: opening is the first event of the
    log, closing is the last, and each happens once. *)
Theorem getFullscreenModes_closes_display x display :
  OpenDisplay x = Some display ->
  let log := log_of (run (getFullscreenModes x)) in
  List.hd no_event log = Acquire Connection /\
  last log no_event = Release Connection /\
  count_occ Resource_eq_dec (acquired log) Connection = 1%nat /\
  count_occ Resource_eq_dec (released log) Connection = 1%nat.
Proof.
  destruct x as [[d |] [|] [config |] [res |] [output_info |] [[| depth depths] |]];
    simpl; intros E; try discriminate E; repeat split.
Qed.

Lemma getFullscreenModes_closes_display_witness :
  let log := log_of (run (getFullscreenModes no_depth)) in
  List.hd no_event log = Acquire Connection /\
  last log no_event = Release Connection /\
  count_occ Resource_eq_dec (acquired log) Connection = 1%nat /\
  count_occ Resource_eq_dec (released log) Connection = 1%nat.
Proof.
  apply (getFullscreenModes_closes_display no_depth {| DefaultDepth := 24 |}).
  reflexivity.
Defined.

(** X11. [getFullscreenModes] asks for the handles in one fixed order
    (connection, screen configuration, screen resources, output
    information, array of depths) and for none after a step has failed: the
    handles obtained are exactly those of the steps before the first one
    that fails. *)
Theorem getFullscreenModes_acquisition_order x :
  let obtained := acquired (log_of (run (getFullscreenModes x))) in
  (OpenDisplay x = None -> obtained = []) /\
  (OpenDisplay x <> None ->
   (XQueryExtension x = false -> obtained = [Connection]) /\
   (XQueryExtension x = true ->
    (XRRGetScreenInfo x = None -> obtained = [Connection]) /\
    (XRRGetScreenInfo x <> None ->
     (XRRGetScreenResources x = None -> obtained = [Connection; ScreenConfig]) /\
     (XRRGetScreenResources x <> None ->
      (XRRGetOutputInfo x = None ->
       obtained = [Connection; ScreenConfig; ScreenResources]) /\
      (XRRGetOutputInfo x <> None ->
       (XListDepths x = None ->
        obtained = [Connection; ScreenConfig; ScreenResources; OutputInfo]) /\
       (XListDepths x <> None -> obtained = chain)))))).
Proof.
  destruct x as [[d |] [|] [config |] [res |] [output_info |] [[| depth depths] |]];
    cbv zeta; simpl;
    repeat match goal with
      | |- _ /\ _ => split
      | |- _ = chain => reflexivity
      | |- ?a = ?a => reflexivity
      | |- ?l = ?r -> _ =>
          let E := fresh "E" in intros E; try discriminate E
      | |- ?l <> ?r -> _ =>
          let N := fresh "N" in
          intros N; try (exfalso; apply N; reflexivity)
      end.
Qed.

Lemma getFullscreenModes_acquisition_order_witness :
  acquired (log_of (run (getFullscreenModes connection_refused))) = [] /\
  acquired (log_of (run (getFullscreenModes scenario_D))) = [Connection] /\
  acquired (log_of (run (getFullscreenModes config_unavailable))) = [Connection] /\
  acquired (log_of (run (getFullscreenModes resources_unavailable)))
  = [Connection; ScreenConfig] /\
  acquired (log_of (run (getFullscreenModes scenario_C))) = chain.
Proof.
  split; [| split; [| split; [| split]]].
  - exact (proj1 (getFullscreenModes_acquisition_order connection_refused) eq_refl).
  - refine (proj1 (proj2 (getFullscreenModes_acquisition_order scenario_D) _) eq_refl).
    discriminate.
  - refine (proj1 (proj2 (proj2 (getFullscreenModes_acquisition_order
                                   config_unavailable) _) eq_refl) eq_refl).
    discriminate.
  - refine (proj1 (proj2 (proj2 (proj2 (getFullscreenModes_acquisition_order
                                          resources_unavailable) _) eq_refl) _) eq_refl);
      discriminate.
  - refine (proj2 (proj2 (proj2 (proj2 (proj2 (proj2
              (getFullscreenModes_acquisition_order scenario_C) _) eq_refl) _) _) _) _);
      discriminate.
Defined.

(** X12. Unless the output's mode list is empty, [getDesktopMode] returns,
    every handle it obtained is given back once and in the reverse of the
    order of the acquisitions, the handles are an initial part of the fixed
    order, and the array of depths is never among them. *)
Theorem getDesktopMode_returns_balanced x :
  (forall output_info,
     XRRGetOutputInfo x = Some output_info -> out_modes output_info <> []) ->
  exists mode log,
    run (getDesktopMode x) = Returns mode log /\
    released_in_reverse log /\
    (exists n, (n <= 4)%nat /\ acquired log = firstn n chain) /\
    ~ In DepthArray (acquired log).
Proof.
  intros N.
  assert (exists mode log, run (getDesktopMode x) = Returns mode log) as (mode & log & R).
  { destruct x as [[d |] [|] [config |] [res |] [[[| m rest]] |] depths];
      simpl in *;
      first [ do 2 eexists; reflexivity
            | exfalso; apply (N _ eq_refl); reflexivity ]. }
  exists mode, log; split; [exact R |].
  split; [exact (getDesktopMode_released _ _ _ R) |].
  clear N.
  destruct x as [[d |] [|] [config |] [res |] [[[| m rest]] |] depths];
    simpl in R; try discriminate R;
    injection R as _ <-; simpl;
    (split;
     [ first [ exists 0%nat; split; [repeat constructor | reflexivity]
             | exists 1%nat; split; [repeat constructor | reflexivity]
             | exists 2%nat; split; [repeat constructor | reflexivity]
             | exists 3%nat; split; [repeat constructor | reflexivity]
             | exists 4%nat; split; [repeat constructor | reflexivity] ]
     | intuition discriminate ]).
Qed.

Lemma getDesktopMode_returns_balanced_witness :
  exists mode log,
    run (getDesktopMode scenario_E) = Returns mode log /\
    released_in_reverse log /\
    (exists n, (n <= 4)%nat /\ acquired log = firstn n chain) /\
    ~ In DepthArray (acquired log).
Proof.
  apply (getDesktopMode_returns_balanced scenario_E).
  intros output_info E; injection E as <-; discriminate.
Defined.

(** X15. Unless [XListDepths] answers an array together with a count of
    zero, [getFullscreenModes] returns with every handle it obtained given
    back once, in the reverse of the order of the acquisitions, and none
    held at the end. *)
Theorem getFullscreenModes_returns_balanced x :
  XListDepths x <> Some [] ->
  exists modes log,
    run (getFullscreenModes x) = Returns modes log /\
    released_in_reverse log.
Proof.
  intros N.
  pose proof (getFullscreenModes_released x N) as B.
  destruct (run (getFullscreenModes x)) as [modes log |] eqn:R.
  - exists modes, log; split; [reflexivity | exact B].
  - exfalso.
    destruct x as [[d |] [|] [config |] [res |] [output_info |] [[| depth depths] |]];
      discriminate R.
Qed.

Lemma getFullscreenModes_returns_balanced_witness :
  exists modes log,
    run (getFullscreenModes scenario_C) = Returns modes log /\
    released_in_reverse log.
Proof.
  apply (getFullscreenModes_returns_balanced scenario_C).
  discriminate.
Defined.

(** ** The desktop mode *)

Lemma getDesktopMode_first_mode x display config res output_info mode rest :
  acquisitions_succeed x display config res output_info ->
  out_modes output_info = mode :: rest ->
  result (run (getDesktopMode x))
  = Some (fold_left (match_mode_info display config mode) (res_modes res)
            VideoMode_default).
Proof.
  intros H E; answers H.
  destruct output_info as [output]; simpl in E; subst output.
  reflexivity.
Qed.

(** A table either holds no entry with the identifier or has a last one. *)
Lemma last_match_or_none (mode : RRMode) (table : list XRRModeInfo) :
  Forall (fun info => id info <> mode) table \/
  exists before info after,
    table = before ++ info :: after /\
    id info = mode /\
    Forall (fun info' => id info' <> mode) after.
Proof.
  induction table as [| a table [F | (before & info & after & -> & E & F)]].
  - left; constructor.
  - destruct (Z.eq_dec (id a) mode) as [E | N].
    + right; exists [], a, table; auto.
    + left; constructor; assumption.
  - right; exists (a :: before), info, after; auto.
Qed.

(** X13. When every acquisition step succeeds and the output lists a mode,
    [getDesktopMode] returns, and its result is the zero-valued mode if no
    descriptor of the resource table carries the first identifier of the
    output, and otherwise the mode of such a descriptor with the default
    depth, rotation corrected. *)
Theorem getDesktopMode_first_mode_cases
    x display config res output_info mode rest :
  acquisitions_succeed x display config res output_info ->
  out_modes output_info = mode :: rest ->
  exists m,
    result (run (getDesktopMode x)) = Some m /\
    ((Forall (fun info => id info <> mode) (res_modes res) /\
      m = VideoMode_default) \/
     (exists info,
        In info (res_modes res) /\ id info = mode /\
        m = rotation_corrected (current_rotation config) info (DefaultDepth display))).
Proof.
  intros H E.
  rewrite (getDesktopMode_first_mode _ _ _ _ _ _ _ H E).
  eexists; split; [reflexivity |].
  destruct (last_match_or_none mode (res_modes res))
    as [F | (before & info & after & -> & Ei & F)].
  - left; split; [exact F | apply match_mode_info_none; exact F].
  - right; exists info; split; [| split].
    + apply in_or_app; right; left; reflexivity.
    + exact Ei.
    + apply match_mode_info_last; assumption.
Qed.

Lemma getDesktopMode_first_mode_cases_witness :
  exists m,
    result (run (getDesktopMode two_sizes)) = Some m /\
    ((Forall (fun info => id info <> M7) [full_hd; hd] /\
      m = VideoMode_default) \/
     (exists info,
        In info [full_hd; hd] /\ id info = M7 /\
        m = rotation_corrected RR_Rotate_270 info 24)).
Proof.
  apply (getDesktopMode_first_mode_cases two_sizes
           {| DefaultDepth := 24 |} {| current_rotation := RR_Rotate_270 |}
           {| res_modes := [full_hd; hd] |} {| out_modes := [M7; M1] |} M7 [M1]).
  - repeat split.
  - reflexivity.
Defined.

(** X14. The two entry points agree: when every fetch answers, the first
    identifier of the output has a descriptor and the default depth is (as
    an [unsigned int]) a depth of the depth list, the mode returned by
    [getDesktopMode] is an element of the sequence returned by
    [getFullscreenModes]. *)
Theorem desktop_mode_among_fullscreen_modes
    x display config res output_info depths info depth :
  acquisitions_succeed x display config res output_info ->
  XListDepths x = Some depths ->
  current_mode_info res output_info info ->
  In depth depths ->
  uint_of_int depth = uint_of_int (DefaultDepth display) ->
  exists mode modes,
    result (run (getDesktopMode x)) = Some mode /\
    result (run (getFullscreenModes x)) = Some modes /\
    In mode modes.
Proof.
  intros H D C Id E.
  do 2 eexists.
  split; [exact (getDesktopMode_current _ _ _ _ _ _ H C) |].
  split; [exact (getFullscreenModes_keep_first _ _ _ _ _ _ H D) |].
  destruct C as (mode & rest & before & after & Eo & Er & Ei & _).
  apply keep_first_In, discovered_In.
  exists depth, (id info), info.
  split; [exact Id |].
  split; [rewrite Eo, Ei; left; reflexivity |].
  split; [rewrite Er; apply in_or_app; right; left; reflexivity |].
  split; [reflexivity |].
  unfold rotation_corrected, exchanged, as_reported; rewrite E; reflexivity.
Qed.

Lemma desktop_mode_among_fullscreen_modes_witness :
  exists mode modes,
    result (run (getDesktopMode two_sizes)) = Some mode /\
    result (run (getFullscreenModes two_sizes)) = Some modes /\
    In mode modes.
Proof.
  apply (desktop_mode_among_fullscreen_modes two_sizes
           {| DefaultDepth := 24 |} {| current_rotation := RR_Rotate_270 |}
           {| res_modes := [full_hd; hd] |} {| out_modes := [M7; M1] |} [16; 24]
           hd 24).
  - repeat split.
  - reflexivity.
  - exists M7, [M1], [full_hd], []; repeat split; constructor.
  - right; left; reflexivity.
  - reflexivity.
Defined.
